(** * cryptoTracking: the two diagnostic scripts

    A shallow embedding of
    - [avantis_sdk_ping.py] (the SDK probe, module [AvantisSdkPing]) and
    - [jules-scratch/verification/verify_frontend.py] (the render
      verification script, module [VerifyFrontend]).

    Both scripts are straight-line sequences of calls into external
    libraries (the Avantis trader SDK, Playwright) and of [print]s.  A run
    is modelled as the list of observable events it produces together with
    the way it ends: normally, or with an exception that propagates.  The
    outcome of every external call (it returns, or it raises a given
    exception) is supplied by an environment, so that each statement below
    is about all possible behaviours of the libraries. *)

From Stdlib Require Import String Ascii List ZArith Lia Bool.
Import ListNotations.
Local Open Scope string_scope.
Local Open Scope list_scope.

(** ** Python control flow: exceptions, [try] / [except] / [finally] *)

Module Py.

(** The class of a raised exception, as far as the scripts and the
    interpreter tell classes apart: instances of [Exception];
    [SystemExit], with the status the interpreter derives from its [code]
    attribute (0 for [None], the integer, cut to its low eight bits by the
    operating system, for an [int], 1 for any other object);
    [KeyboardInterrupt]; and the other classes that derive from
    [BaseException] only ([GeneratorExit], [asyncio.CancelledError], ...). *)
Inductive exn_class : Type :=
| Exception
| SystemExit (status : Z)
| KeyboardInterrupt
| OtherBaseException.

(** A raised exception: its class, and what [str(e)], and hence an
    f-string, renders. *)
Record exn : Type := mkExn { class_of : exn_class; str : string }.

(** [isinstance(e, Exception)] *)
Definition is_Exception (e : exn) : bool :=
  match class_of e with
  | Exception => true
  | SystemExit _ | KeyboardInterrupt | OtherBaseException => false
  end.

(** The status of the interpreter process when [e] reaches the top level:
    the requested status for [SystemExit]; for [KeyboardInterrupt] the
    interpreter ends by the signal SIGINT, which is reported as 130; in all
    other cases the traceback is printed and the status is 1. *)
Definition top_level_status (e : exn) : Z :=
  match class_of e with
  | SystemExit status => status
  | KeyboardInterrupt => 130%Z
  | Exception | OtherBaseException => 1%Z
  end.

(** How a block of statements ends. *)
Inductive result (A : Type) : Type :=
| Ok (a : A)
| Raise (e : exn).
Arguments Ok {A} a.
Arguments Raise {A} e.

(** The status of the interpreter process: 0 when the module body runs to
    its end, and the status of the exception that reaches the top level
    otherwise. *)
Definition exit_status {A : Type} (r : result A) : Z :=
  match r with
  | Ok _ => 0%Z
  | Raise e => top_level_status e
  end.

Section Effects.

(** The external calls a script issues. *)
Variable call : Type.

(** What an observer of a run sees: every external call with the
    exception it raised, if any, and every line written by [print]. *)
Inductive event : Type :=
| Call (c : call) (raised : option exn)
| Print (line : string).

Definition trace : Type := list event.

(** A block of statements: the events it produced, in order, and how it
    ended. *)
Definition M (A : Type) : Type := (trace * result A)%type.

Definition ret {A : Type} (a : A) : M A := ([], Ok a).

Definition bind {A B : Type} (m : M A) (k : A -> M B) : M B :=
  match m with
  | (t, Ok a) => let (t', r) := k a in (t ++ t', r)
  | (t, Raise e) => (t, Raise e)
  end.

(** [print(line)]: console output is taken to succeed. *)
Definition print (line : string) : M unit := ([Print line], Ok tt).

(** An external call whose outcome [o] the environment decided. *)
Definition external {A : Type} (c : call) (o : exn + A) : M A :=
  match o with
  | inl e => ([Call c (Some e)], Raise e)
  | inr a => ([Call c None], Ok a)
  end.

(** [try: body / except Exception as e: handler e]. Exceptions that are
    not instances of [Exception] pass through. *)
Definition try_except {A : Type} (body : M A) (handler : exn -> M A) : M A :=
  match body with
  | (t, Raise e) =>
      if is_Exception e
      then let (t', r) := handler e in (t ++ t', r)
      else (t, Raise e)
  | (t, Ok a) => (t, Ok a)
  end.

(** [try: body / finally: cleanup]. The cleanup runs however the body
    ended; an exception raised by the cleanup replaces the body's
    outcome. *)
Definition try_finally {A : Type} (body : M A) (cleanup : M unit) : M A :=
  match body, cleanup with
  | (t, r), (t', Ok _) => (t ++ t', r)
  | (t, _), (t', Raise e') => (t ++ t', Raise e')
  end.

(** [for x in xs: body x]. *)
Fixpoint for_each {A : Type} (xs : list A) (body : A -> M unit) : M unit :=
  match xs with
  | [] => ret tt
  | x :: xs' => bind (body x) (fun _ => for_each xs' body)
  end.

(** Observations on a trace. *)
Definition printed (t : trace) : list string :=
  flat_map (fun ev => match ev with Print s => [s] | Call _ _ => [] end) t.

Definition calls (t : trace) : list call :=
  flat_map (fun ev => match ev with Call c _ => [c] | Print _ => [] end) t.

End Effects.

Arguments Call {call} c raised.
Arguments Print {call} line.
Arguments ret {call A} a.
Arguments bind {call A B} m k.
Arguments print {call} line.
Arguments external {call A} c o.
Arguments try_except {call A} body handler.
Arguments try_finally {call A} body cleanup.
Arguments for_each {call A} xs body.
Arguments printed {call} t.
Arguments calls {call} t.

Module Notations.
Declare Scope py_scope.
Delimit Scope py_scope with py.
Notation "x <- m ;; k" := (bind m (fun x => k))
  (at level 61, m at next level, right associativity) : py_scope.
Notation "m ;; k" := (bind m (fun _ => k))
  (at level 61, right associativity) : py_scope.
End Notations.

End Py.

Import Py.Notations.

(** ** Script A: [avantis_sdk_ping.py] *)

Module AvantisSdkPing.

Import Py.

Section Probe.

(** The mapping returned by the SDK is opaque to the script: keys and
    values are only unpacked and handed to [print], which renders each
    with [str]. *)
Variables (Key Value : Type).
Variable str_key : Key -> string.
Variable str_value : Value -> string.

(** A Python [dict] read through [items()]: its entries in iteration
    order. *)
Definition pairs_info : Type := list (Key * Value).

Inductive call : Type :=
| TraderClient (provider_url : string)
| get_pairs_info.

(** Opaque handle on the client object. *)
Inductive client_handle : Type := Client.

(** The behaviour of the SDK during one run. *)
Record sdk : Type := mkSdk {
  sdk_TraderClient : exn + client_handle;
  sdk_get_pairs_info : exn + pairs_info
}.

Definition header : string := "Fetching Avantis perp pairs via SDK...".

(** [print(symbol, info)]: the two renderings separated by a blank. *)
Definition pair_line (entry : Key * Value) : string :=
  (str_key (fst entry) ++ " " ++ str_value (snd entry))%string.

(** [list(pairs.items())[:5]] *)
Definition first_five (pairs : pairs_info) : list (Key * Value) :=
  firstn 5 pairs.

Definition main (env : sdk) : M call unit :=
  (let provider_url := "https://mainnet.base.org" in
   client <- external (TraderClient provider_url) (sdk_TraderClient env) ;;
   print header ;;
   pairs <- external get_pairs_info (sdk_get_pairs_info env) ;;
   for_each (first_five pairs) (fun entry => print (pair_line entry)))%py.

(** [asyncio.run(main())] under the [__main__] guard: the module body. *)
Definition script (env : sdk) : M call unit := main env.

(** The lines printed once the fetch has been issued. *)
Fixpoint printed_after_fetch (t : trace call) : list string :=
  match t with
  | [] => []
  | Call get_pairs_info _ :: t' => printed t'
  | _ :: t' => printed_after_fetch t'
  end.

(** How often the fetch was issued. *)
Definition fetch_count (t : trace call) : nat :=
  length (filter (fun c => match c with get_pairs_info => true | _ => false end)
                 (calls t)).

End Probe.

Arguments mkSdk {Key Value} _ _.
Arguments sdk_TraderClient {Key Value} _.
Arguments sdk_get_pairs_info {Key Value} _.
Arguments pair_line {Key Value} str_key str_value entry.
Arguments first_five {Key Value} pairs.
Arguments main {Key Value} str_key str_value env.
Arguments script {Key Value} str_key str_value env.

End AvantisSdkPing.

(** ** Script B: [jules-scratch/verification/verify_frontend.py] *)

Module VerifyFrontend.

Import Py.

(** A Playwright locator with the arguments it was built from.  Keyword
    arguments that a call site may leave out are options. *)
Inductive locator : Type :=
| get_by_role (role : string) (name : option string) (exact : option bool)
| get_by_text (text : string) (exact : option bool).

(** The calls into Playwright.  Time-outs are in milliseconds, the unit of
    the [timeout] keyword. *)
Inductive call : Type :=
| sync_playwright_enter
| sync_playwright_exit
| chromium_launch (headless : bool)
| new_page
| goto (url : string)
| expect_to_be_visible (target : locator) (timeout : Z)
| screenshot (path : string)
| browser_close.

(** Opaque handles on the objects Playwright hands out. *)
Inductive playwright_handle : Type := Playwright.
Inductive browser_handle : Type := Browser.
Inductive page_handle : Type := Page.

(** The behaviour of Playwright, the browser and the frontend during one
    run: for each call, the exception it raises, if any.  No call is issued
    twice in a run, so nothing is lost by indexing outcomes by the call
    instead of by the moment it is made. *)
Definition playwright_env : Type := call -> option exn.

Definition outcome {A : Type} (o : option exn) (a : A) : exn + A :=
  match o with
  | Some e => inl e
  | None => inr a
  end.

Definition invoke {A : Type} (env : playwright_env) (c : call) (a : A) : M call A :=
  external c (outcome (env c) a).


Definition frontend_url : string := "http://localhost:3000".

Definition heading_locator : locator :=
  get_by_role "heading" (Some "DeFi Borrowed Positions") None.

Definition total_borrowed_locator : locator :=
  get_by_text "Total Borrowed (All Chains)" None.

Definition expect_heading : call := expect_to_be_visible heading_locator 30000.

Definition expect_total_borrowed : call :=
  expect_to_be_visible total_borrowed_locator 60000.

Definition verification_png : string :=
  "/app/jules-scratch/verification/verification.png".

Definition error_png : string := "/app/jules-scratch/verification/error.png".

Definition success_message : string := "Screenshot taken successfully.".

Definition error_prefix : string := "An error occurred: ".

(** [f"An error occurred: {e}"] *)
Definition error_line (e : exn) : string := (error_prefix ++ str e)%string.

(** The statements under [try:]. *)
Definition protected_steps (env : playwright_env) (page : page_handle)
  : M call unit :=
  (invoke env (goto frontend_url) tt ;;
   invoke env expect_heading tt ;;
   invoke env expect_total_borrowed tt ;;
   invoke env (screenshot verification_png) tt ;;
   print success_message)%py.

(** The statements under [except Exception as e:]. *)
Definition handler (env : playwright_env) (page : page_handle) (e : exn)
  : M call unit :=
  (print (error_line e) ;;
   invoke env (screenshot error_png) tt)%py.

Definition run (env : playwright_env) (playwright : playwright_handle)
  : M call unit :=
  (browser <- invoke env (chromium_launch true) Browser ;;
   page <- invoke env new_page Page ;;
   try_finally
     (try_except (protected_steps env page) (handler env page))
     (invoke env browser_close tt))%py.

(** [with sync_playwright() as playwright: run(playwright)].  The context
    manager's [__exit__] returns [None], so it never suppresses an
    exception of the body: the statement behaves as [try] / [finally]
    around the body once [__enter__] has returned. *)
Definition script (env : playwright_env) : M call unit :=
  (playwright <- invoke env sync_playwright_enter Playwright ;;
   try_finally (run env playwright) (invoke env sync_playwright_exit tt))%py.

(** *** Observations *)

(** The four calls under [try:]. *)
Definition protected_calls : list call :=
  [goto frontend_url; expect_heading; expect_total_borrowed;
   screenshot verification_png].

(** The three failure points that precede the success screenshot. *)
Definition failure_points : list call :=
  [goto frontend_url; expect_heading; expect_total_borrowed].

(** The script got as far as holding a browser and a page. *)
Definition started (env : playwright_env) : Prop :=
  env sync_playwright_enter = None /\
  env (chromium_launch true) = None /\
  env new_page = None.

(** Every exception raised during the run is one the handler catches: an
    instance of [Exception] raised by one of the calls under [try:]. *)
Definition only_caught_faults (t : trace call) : Prop :=
  forall c e, In (Call c (Some e)) t ->
              In c protected_calls /\ is_Exception e = true.

(** Files on disk after the run: the paths of the screenshot calls that
    returned. *)
Definition files_written (t : trace call) : list string :=
  flat_map (fun ev => match ev with
                      | Call (screenshot path) None => [path]
                      | _ => []
                      end) t.

Definition is_close (c : call) : bool :=
  match c with browser_close => true | _ => false end.

Definition close_count (t : trace call) : nat :=
  length (filter is_close (calls t)).



Definition is_success_message (line : string) : bool :=
  String.eqb line success_message.




(** *** Accessible-name matching

    What the [name] and [exact] arguments of [get_by_role] mean, after the
    Playwright documentation: "By default, matching is case-insensitive and
    searches for a substring, use [exact] to control this behavior";
    [exact] is "whether [name] is matched exactly: case-sensitive and
    whole-string. Defaults to false."  (The normalisation of white space,
    which applies in both modes, is left out.) *)






(** The exception raised by the last call of the run that raised, if any
    did. *)
Fixpoint last_raised (t : trace call) : option exn :=
  match t with
  | [] => None
  | ev :: t' =>
      match last_raised t' with
      | Some e => Some e
      | None => match ev with
                | Call _ (Some e) => Some e
                | _ => None
                end
      end
  end.

End VerifyFrontend.

(** ** Concrete runs used to exercise the statements below *)

Module Scenarios.

Import Py.

Definition connection_refused : exn :=
  mkExn Exception "net::ERR_CONNECTION_REFUSED at http://localhost:3000".

Definition assertion_timeout : exn :=
  mkExn Exception "Locator expected to be visible".

Definition target_closed : exn :=
  mkExn Exception "Target page, context or browser has been closed".

Definition permission_denied : exn :=
  mkExn Exception "[Errno 13] Permission denied".

Definition keyboard_interrupt : exn := mkExn KeyboardInterrupt "".

(** [sys.exit(0)] called from inside a library. *)
Definition clean_exit : exn := mkExn (SystemExit 0) "0".

Module A.
Import AvantisSdkPing.

Definition id_str (s : string) : string := s.

(** The SDK answers with two pairs. *)
Definition two_pairs : sdk string string :=
  mkSdk (inr Client) (inr [("ETH/USD", "crypto"); ("BTC/USD", "crypto")]).

(** The SDK answers with seven pairs. *)
Definition seven_pairs : sdk string string :=
  mkSdk (inr Client)
    (inr [("ETH/USD", "0"); ("BTC/USD", "1"); ("SOL/USD", "2"); ("BNB/USD", "3");
          ("ARB/USD", "4"); ("DOGE/USD", "5"); ("AVAX/USD", "6")]).


End A.

Module B.
Import VerifyFrontend.

(** Every call returns. *)
Definition all_good : playwright_env := fun _ => None.

(** Nothing listens on port 3000; the diagnostic screenshot works. *)
Definition frontend_down : playwright_env :=
  fun c => match c with
           | goto _ => Some connection_refused
           | _ => None
           end.

(** The heading shows, the totals never do. *)
Definition totals_missing : playwright_env :=
  fun c => match c with
           | expect_to_be_visible (get_by_text _ _) _ => Some assertion_timeout
           | _ => None
           end.

(** The page dies during navigation: both the navigation and the
    diagnostic screenshot raise. *)
Definition page_crashed : playwright_env :=
  fun c => match c with
           | goto _ => Some target_closed
           | screenshot _ => Some target_closed
           | _ => None
           end.

(** The page renders, the success screenshot cannot be stored. *)
Definition cannot_store_screenshot : playwright_env :=
  fun c => match c with
           | screenshot "/app/jules-scratch/verification/verification.png" =>
               Some permission_denied
           | _ => None
           end.

(** The operator interrupts the script while it navigates. *)
Definition interrupted : playwright_env :=
  fun c => match c with
           | goto _ => Some keyboard_interrupt
           | _ => None
           end.

(** Chromium is not installed. *)
Definition no_chromium : playwright_env :=
  fun c => match c with
           | chromium_launch _ => Some (mkExn Exception "Executable doesn't exist")
           | _ => None
           end.

(** The browser starts, opening a page fails. *)
Definition no_page : playwright_env :=
  fun c => match c with
           | new_page => Some target_closed
           | _ => None
           end.

(** Everything renders, closing the browser fails. *)
Definition close_fails : playwright_env :=
  fun c => match c with
           | browser_close => Some target_closed
           | _ => None
           end.
End B.

End Scenarios.

(** * The exit status of an exception *)

Section ExitStatusFacts.

Import Py.




Lemma Exception_not_clean_exit (e : exn) :
  is_Exception e = true -> class_of e <> SystemExit 0.
Proof.
  unfold is_Exception. intros H Hclass. rewrite Hclass in H. discriminate H.
Qed.

End ExitStatusFacts.

(** * Properties of the SDK probe *)

Section ProbeFacts.

Import Py AvantisSdkPing.

Variables (Key Value : Type).
Variable str_key : Key -> string.
Variable str_value : Value -> string.

Local Abbreviation script := (script str_key str_value).
Local Abbreviation pair_line := (pair_line str_key str_value).

Lemma for_each_print (A : Type) (line : A -> string) (xs : list A) :
  for_each (call := call) xs (fun x => print (line x))
  = (map (fun x => Print (line x)) xs, Ok tt).
Proof.
  induction xs as [|x xs IH]; simpl.
  - reflexivity.
  - rewrite IH. reflexivity.
Qed.

Lemma printed_map_Print (A : Type) (line : A -> string) (xs : list A) :
  printed (call := call) (map (fun x => Print (line x)) xs) = map line xs.
Proof.
  induction xs as [|x xs IH]; simpl; [reflexivity | now rewrite IH].
Qed.

(** The whole run when the client is built and the fetch returns. *)
Lemma script_fetch_ok (env : sdk Key Value) (pairs : pairs_info Key Value) :
  sdk_TraderClient env = inr Client ->
  sdk_get_pairs_info env = inr pairs ->
  script env =
    ([Call (TraderClient "https://mainnet.base.org") None; Print header;
      Call get_pairs_info None]
       ++ map (fun entry => Print (pair_line entry)) (firstn 5 pairs),
     Ok tt).
Proof.
  intros Hclient Hfetch.
  unfold AvantisSdkPing.script, main, first_five.
  rewrite Hclient, Hfetch. simpl.
  rewrite for_each_print. reflexivity.
Qed.


(** C3. Whatever mapping the fetch returns, the lines printed after the
    fetch are the renderings of the first five entries of the mapping in
    its iteration order (all of them when there are fewer than five), so
    exactly [min n 5] lines for a mapping of [n] entries; the run ends
    normally. *)
Theorem probe_prints_min_n_5_pairs (env : sdk Key Value) (pairs : pairs_info Key Value) :
  sdk_TraderClient env = inr Client ->
  sdk_get_pairs_info env = inr pairs ->
  printed_after_fetch (fst (script env)) = map pair_line (firstn 5 pairs) /\
  length (printed_after_fetch (fst (script env))) = Nat.min (length pairs) 5 /\
  (length pairs < 5 ->
   printed_after_fetch (fst (script env)) = map pair_line pairs) /\
  snd (script env) = Ok tt.
Proof.
  intros Hclient Hfetch.
  rewrite (script_fetch_ok env pairs Hclient Hfetch).
  cbn [fst snd app printed_after_fetch].
  rewrite printed_map_Print. repeat split.
  - rewrite length_map, length_firstn. apply Nat.min_comm.
  - intros Hshort. rewrite firstn_all2 by lia. reflexivity.
Qed.





(** X3. In every run the output is bounded: either nothing is printed, or
    the header comes first and at most five lines follow; the fetch is
    issued at most once and the SDK is called at most twice. *)
Theorem probe_output_bounded (env : sdk Key Value) :
  (printed (fst (script env)) = [] \/
   exists lines,
     printed (fst (script env)) = header :: lines /\ length lines <= 5) /\
  fetch_count (fst (script env)) <= 1 /\
  length (calls (fst (script env))) <= 2.
Proof.
  unfold AvantisSdkPing.script, main.
  destruct (sdk_TraderClient env) as [e0 | client]; simpl.
  - split; [left; reflexivity | split; auto].
  - destruct (sdk_get_pairs_info env) as [e | pairs]; simpl.
    + split; [right; exists []; split; [reflexivity | simpl; lia] |].
      split; auto.
    + rewrite for_each_print. simpl.
      assert (Hcalls : calls (call := call)
                         (map (fun entry => Print (pair_line entry))
                              (first_five pairs)) = []).
      { induction (first_five pairs) as [|x xs IH]; [reflexivity | exact IH]. }
      unfold fetch_count. simpl. rewrite Hcalls.
      split; [| split; simpl; lia].
      right. exists (map pair_line (first_five pairs)). split.
      * rewrite printed_map_Print. reflexivity.
      * unfold first_five. rewrite length_map, length_firstn. lia.
Qed.

(** X4. Entries after the fifth do not influence the run: extending a
    mapping that already has five entries leaves events and outcome
    unchanged. *)
Theorem probe_ignores_entries_after_fifth
    (client : exn + client_handle) (pairs more : pairs_info Key Value) :
  5 <= length pairs ->
  script (mkSdk client (inr (pairs ++ more))) = script (mkSdk client (inr pairs)).
Proof.
  intros Hlen. unfold AvantisSdkPing.script, main. simpl.
  destruct client as [e0 | c]; simpl; [reflexivity |].
  unfold first_five.
  rewrite firstn_app.
  replace (5 - length pairs) with 0 by lia.
  rewrite firstn_O, app_nil_r. reflexivity.
Qed.

End ProbeFacts.

(** * Properties of the render verification script *)

Section VerificationFacts.

Import Py VerifyFrontend.

#[local] Arguments error_line : simpl never.
#[local] Arguments String.append : simpl never.

Ltac unfold_script :=
  unfold script, run, protected_steps, handler, invoke in *.

Ltac reduce_run :=
  cbn [bind try_except try_finally external outcome print ret fst snd app] in *.

(** Follow the run along the outcomes the environment gives to each call
    it reaches, and along the class of each exception it meets. *)
Ltac split_on env :=
  repeat (reduce_run;
          match goal with
          | |- context [outcome (env ?c) _] =>
              destruct (env c) as [?e|] eqn:?
          | |- context [if is_Exception ?e then _ else _] =>
              destruct (is_Exception e) eqn:?
          end);
  reduce_run.

Ltac in_list := simpl; repeat (first [left; reflexivity | right]).

(** Solve [H : t = before ++ x :: after] for a concrete [t], running [k]
    at every position at which [x] may sit. *)
Ltac locate H before k :=
  destruct before as [| ? before]; cbn [app] in H;
  [ first [ discriminate H | injection H; intros; subst; k ]
  | first [ discriminate H | injection H as ? H; subst; locate H before k ] ].

(** Case analysis on [H : In x t] for a concrete [t]. *)
Ltac elim_in H :=
  simpl in H;
  repeat match type of H with
         | _ \/ _ =>
             destruct H as [H|H];
             [ first [ discriminate H | injection H as ? ?; subst ] | ]
         | False => contradiction H
         end.

Ltac not_a_failure_point H :=
  exfalso; unfold failure_points, protected_calls, expect_heading,
    expect_total_borrowed in H;
  simpl in H; intuition discriminate.

(** Contradict [H : forall c e, In (Call c (Some e)) t -> _ /\ _] with a
    call in [t] that raised outside the protected steps, or raised an
    exception outside the class [Exception]. *)
Ltac refute_faults H :=
  exfalso;
  match type of H with
  | forall c e, In _ ?t -> _ =>
      match t with
      | context [Call ?c (Some ?e)] =>
          let K := fresh "K" in
          assert (K : In c protected_calls /\ is_Exception e = true)
            by (apply H; in_list);
          destruct K as [K1 K2];
          first [ congruence | not_a_failure_point K1 ]
      end
  end.

Lemma paths_differ : verification_png <> error_png.
Proof. discriminate. Qed.


Lemma error_line_not_success (e : exn) : is_success_message (error_line e) = false.
Proof. reflexivity. Qed.

Lemma error_line_neq_success (e : exn) : error_line e <> success_message.
Proof.
  intros Heq. pose proof (error_line_not_success e) as Hno.
  rewrite Heq in Hno. discriminate Hno.
Qed.


Ltac absurd_equation :=
  exfalso;
  match goal with
  | Hp : verification_png = error_png |- _ => exact (paths_differ Hp)
  | Hp : error_png = verification_png |- _ => exact (paths_differ (eq_sym Hp))
  | Hp : error_line ?e = success_message |- _ => exact (error_line_neq_success e Hp)
  | Hp : success_message = error_line ?e |- _ =>
      exact (error_line_neq_success e (eq_sym Hp))
  end.

(** C2. Once [run] holds a browser and a page, its last action is the call
    to [browser.close], whichever way the protected steps and the handler
    ended, and it is the only such call. *)
Theorem run_always_closes_browser (env : playwright_env) (playwright : playwright_handle) :
  env (chromium_launch true) = None ->
  env new_page = None ->
  exists before raised,
    fst (run env playwright) = before ++ [Call browser_close raised] /\
    ~ In browser_close (calls before) /\
    close_count (fst (run env playwright)) = 1.
Proof.
  intros Hlaunch Hpage. unfold_script. rewrite Hlaunch, Hpage.
  split_on env;
    match goal with
    | |- exists b r, ?t = _ /\ _ =>
        exists (removelast t); eexists; split; [reflexivity|]
    end;
    (split; [simpl; intuition discriminate | reflexivity]).
Qed.


(** Between them, the three failure points raise at most once in a run. *)
Lemma at_most_one_failure_point (env : playwright_env) (c c' : call) (e e' : exn) :
  In c failure_points -> In c' failure_points ->
  In (Call c (Some e)) (fst (script env)) ->
  In (Call c' (Some e')) (fst (script env)) ->
  c = c' /\ e = e'.
Proof.
  intros Hc Hc'. unfold_script.
  split_on env; intros Hin Hin'; elim_in Hin; elim_in Hin';
    first [ split; reflexivity | not_a_failure_point Hc | not_a_failure_point Hc' ].
Qed.

(** C7. When the navigation, the first or the second visibility assertion
    raises, [browser.close] is called exactly once in the run, whichever of
    the three it was. *)
Theorem failure_closes_browser_once (env : playwright_env) (c : call) (e : exn) :
  In c failure_points ->
  In (Call c (Some e)) (fst (script env)) ->
  close_count (fst (script env)) = 1.
Proof.
  intros Hc. unfold_script.
  split_on env; intros Hin; try reflexivity;
    elim_in Hin; not_a_failure_point Hc.
Qed.

(** C1. In a run in which the only exceptions raised are instances of
    [Exception] coming from the navigation, the two visibility assertions
    or the success screenshot, the script ends normally and the exit status
    is zero: each such exception has been caught by the handler, which
    printed its error line. *)
Theorem exit_status_zero_when_faults_caught (env : playwright_env) :
  started env ->
  only_caught_faults (fst (script env)) ->
  snd (script env) = Ok tt /\
  exit_status (snd (script env)) = 0%Z /\
  (forall c e, In (Call c (Some e)) (fst (script env)) ->
               In (Print (error_line e)) (fst (script env))).
Proof.
  intros _. unfold only_caught_faults. unfold_script.
  split_on env; intros H;
    first [ refute_faults H
          | split; [reflexivity | split; [reflexivity |]];
            intros c0 e0 Hin; elim_in Hin; in_list ].
Qed.











(** X5. When the browser cannot be launched, nothing else of [run] happens:
    no page, no navigation, no screenshot, no output and no call to
    [browser.close]; the context manager is still left, and an exception
    leaves the script: the one of the launch, unless leaving the context
    manager raises too. *)
Theorem launch_failure_skips_run (env : playwright_env) (e : exn) :
  env sync_playwright_enter = None ->
  env (chromium_launch true) = Some e ->
  calls (fst (script env))
  = [sync_playwright_enter; chromium_launch true; sync_playwright_exit] /\
  printed (fst (script env)) = [] /\
  files_written (fst (script env)) = [] /\
  exists e',
    snd (script env) = Raise e' /\
    (env sync_playwright_exit = None -> e' = e).
Proof.
  intros Henter Hlaunch. unfold_script. rewrite Henter, Hlaunch.
  split_on env; repeat split; eexists; (split; [reflexivity |]);
    intros Hexit; first [reflexivity | discriminate Hexit].
Qed.

(** X6. The page is opened before the [try] block: when [new_page] raises
    after the browser has been launched, [browser.close] is never called;
    nothing is printed, no screenshot is taken, only the context manager is
    left, and an exception leaves the script: the one of [new_page], unless
    leaving the context manager raises too. *)
Theorem new_page_failure_never_closes_browser (env : playwright_env) (e : exn) :
  env sync_playwright_enter = None ->
  env (chromium_launch true) = None ->
  env new_page = Some e ->
  close_count (fst (script env)) = 0 /\
  calls (fst (script env))
  = [sync_playwright_enter; chromium_launch true; new_page; sync_playwright_exit] /\
  printed (fst (script env)) = [] /\
  files_written (fst (script env)) = [] /\
  exists e',
    snd (script env) = Raise e' /\
    (env sync_playwright_exit = None -> e' = e).
Proof.
  intros Henter Hlaunch Hpage. unfold_script. rewrite Henter, Hlaunch, Hpage.
  split_on env; repeat split; eexists; (split; [reflexivity |]);
    intros Hexit; first [reflexivity | discriminate Hexit].
Qed.

(** X7. Once the context manager has been entered, leaving it is the last
    event of the script on every path, and it happens once. *)
Theorem context_exit_runs_once_and_last (env : playwright_env) :
  env sync_playwright_enter = None ->
  exists before raised,
    fst (script env) = before ++ [Call sync_playwright_exit raised] /\
    ~ In sync_playwright_exit (calls before).
Proof.
  intros Henter. unfold_script. rewrite Henter.
  split_on env;
    match goal with
    | |- exists b r, ?t = _ /\ _ =>
        exists (removelast t); eexists; split; [reflexivity |]
    end;
    simpl; intuition discriminate.
Qed.

(** X8. The exception that leaves the script is the one raised last in the
    run: an exception of the diagnostic screenshot, of [browser.close] or of
    the context exit replaces any earlier one. *)
Theorem propagating_exception_is_last_raised (env : playwright_env) (e : exn) :
  snd (script env) = Raise e ->
  last_raised (fst (script env)) = Some e.
Proof.
  unfold_script.
  split_on env; intros Hraise; first [discriminate Hraise | injection Hraise as <-];
    reflexivity.
Qed.

(** X9. The success screenshot is attempted only after the navigation and
    both visibility assertions have returned. *)
Theorem success_screenshot_after_assertions
    (env : playwright_env) (before after : trace call) (raised : option exn) :
  fst (script env) = before ++ Call (screenshot verification_png) raised :: after ->
  In (Call (goto frontend_url) None) before /\
  In (Call expect_heading None) before /\
  In (Call expect_total_borrowed None) before.
Proof.
  unfold_script.
  split_on env; intros Heq;
    locate Heq before
      ltac:(first [ absurd_equation | repeat split; solve [in_list] ]).
Qed.


(** X12. An exception raised under [try:] that is not an instance of
    [Exception] bypasses the handler: nothing is printed, no file is
    written, the diagnostic screenshot is not attempted; [browser.close]
    still runs once and an exception leaves the script: that very one,
    unless [browser.close] or leaving the context manager raises too. *)
Theorem uncaught_class_bypasses_handler (env : playwright_env) (c : call) (e : exn) :
  In c protected_calls ->
  In (Call c (Some e)) (fst (script env)) ->
  is_Exception e = false ->
  printed (fst (script env)) = [] /\
  files_written (fst (script env)) = [] /\
  ~ In (screenshot error_png) (calls (fst (script env))) /\
  close_count (fst (script env)) = 1 /\
  exists e',
    snd (script env) = Raise e' /\
    (env browser_close = None -> env sync_playwright_exit = None -> e' = e).
Proof.
  intros Hc. unfold_script.
  split_on env; intros Hin Hclass; elim_in Hin;
    first [ congruence
          | not_a_failure_point Hc
          | split; [reflexivity |];
            split; [reflexivity |];
            split; [simpl; intuition discriminate |];
            split; [reflexivity |];
            eexists; (split; [reflexivity |]);
            intros Hclose Hexit;
            first [reflexivity | discriminate Hclose | discriminate Hexit] ].
Qed.


End VerificationFacts.

(** * The statements at concrete runs *)

Module AtScenarios.

Import Py Scenarios.

Module ProbeRuns.
Import AvantisSdkPing Scenarios.A.

Example two_pairs_run :
  script id_str id_str two_pairs
  = ([Call (TraderClient "https://mainnet.base.org") None;
      Print "Fetching Avantis perp pairs via SDK...";
      Call get_pairs_info None;
      Print "ETH/USD crypto"; Print "BTC/USD crypto"],
     Ok tt).
Proof. reflexivity. Qed.

Example seven_pairs_printed :
  printed (fst (script id_str id_str seven_pairs))
  = ["Fetching Avantis perp pairs via SDK..."; "ETH/USD 0"; "BTC/USD 1";
     "SOL/USD 2"; "BNB/USD 3"; "ARB/USD 4"].
Proof. reflexivity. Qed.

Lemma probe_prints_min_n_5_pairs_witness :
  sdk_TraderClient two_pairs = inr Client /\
  sdk_get_pairs_info two_pairs
  = inr [("ETH/USD", "crypto"); ("BTC/USD", "crypto")] /\
  printed_after_fetch (fst (script id_str id_str two_pairs))
  = ["ETH/USD crypto"; "BTC/USD crypto"] /\
  length (printed_after_fetch (fst (script id_str id_str two_pairs))) = 2.
Proof.
  split; [reflexivity | split; [reflexivity |]].
  destruct (probe_prints_min_n_5_pairs string string id_str id_str two_pairs
              [("ETH/USD", "crypto"); ("BTC/USD", "crypto")]
              eq_refl eq_refl) as (Hlines & Hcount & _ & _).
  split; [exact Hlines | exact Hcount].
Defined.



(** A library that calls [sys.exit(0)] during the fetch ends the probe
    with status 0. *)
Example clean_exit_during_fetch :
  exit_status (snd (script id_str id_str (mkSdk (inr Client) (inl clean_exit))))
  = 0%Z.
Proof. reflexivity. Qed.


Lemma probe_ignores_entries_after_fifth_witness :
  5 <= length [("ETH/USD", "0"); ("BTC/USD", "1"); ("SOL/USD", "2");
               ("BNB/USD", "3"); ("ARB/USD", "4")] /\
  script id_str id_str seven_pairs
  = script id_str id_str
      (mkSdk (inr Client)
         (inr [("ETH/USD", "0"); ("BTC/USD", "1"); ("SOL/USD", "2");
               ("BNB/USD", "3"); ("ARB/USD", "4")])).
Proof.
  split; [simpl; lia |].
  apply (probe_ignores_entries_after_fifth string string id_str id_str
           (inr Client)
           [("ETH/USD", "0"); ("BTC/USD", "1"); ("SOL/USD", "2");
            ("BNB/USD", "3"); ("ARB/USD", "4")]
           [("DOGE/USD", "5"); ("AVAX/USD", "6")]).
  simpl; lia.
Defined.
End ProbeRuns.

Module VerificationRuns.
Import VerifyFrontend Scenarios.B.

Example all_good_run :
  script all_good
  = ([Call sync_playwright_enter None; Call (chromium_launch true) None;
      Call new_page None; Call (goto "http://localhost:3000") None;
      Call expect_heading None; Call expect_total_borrowed None;
      Call (screenshot verification_png) None;
      Print "Screenshot taken successfully.";
      Call browser_close None; Call sync_playwright_exit None],
     Ok tt).
Proof. reflexivity. Qed.

Example frontend_down_run :
  script frontend_down
  = ([Call sync_playwright_enter None; Call (chromium_launch true) None;
      Call new_page None;
      Call (goto "http://localhost:3000") (Some connection_refused);
      Print "An error occurred: net::ERR_CONNECTION_REFUSED at http://localhost:3000";
      Call (screenshot error_png) None;
      Call browser_close None; Call sync_playwright_exit None],
     Ok tt).
Proof. reflexivity. Qed.

Example page_crashed_run :
  script page_crashed
  = ([Call sync_playwright_enter None; Call (chromium_launch true) None;
      Call new_page None;
      Call (goto "http://localhost:3000") (Some target_closed);
      Print "An error occurred: Target page, context or browser has been closed";
      Call (screenshot error_png) (Some target_closed);
      Call browser_close None; Call sync_playwright_exit None],
     Raise target_closed).
Proof. reflexivity. Qed.

(** A library that calls [sys.exit(0)] during the navigation: the handler
    is bypassed and the status is 0. *)
Example clean_exit_during_goto :
  exit_status
    (snd (script (fun c => match c with goto _ => Some clean_exit | _ => None end)))
  = 0%Z.
Proof. reflexivity. Qed.

Example interrupted_exit_status :
  exit_status (snd (script interrupted)) = 130%Z.
Proof. reflexivity. Qed.

Example interrupted_run :
  script interrupted
  = ([Call sync_playwright_enter None; Call (chromium_launch true) None;
      Call new_page None;
      Call (goto "http://localhost:3000") (Some keyboard_interrupt);
      Call browser_close None; Call sync_playwright_exit None],
     Raise keyboard_interrupt).
Proof. reflexivity. Qed.

Lemma started_all_good : started all_good.
Proof. repeat split. Defined.

Lemma started_frontend_down : started frontend_down.
Proof. repeat split. Defined.

Lemma started_totals_missing : started totals_missing.
Proof. repeat split. Defined.

Lemma started_page_crashed : started page_crashed.
Proof. repeat split. Defined.



(** The claim C1 fails as stated: the browser and the page are there, the
    navigation fails, the diagnostic screenshot fails in turn, and its
    exception leaves the script. *)
Lemma exit_status_nonzero_when_error_screenshot_fails :
  started page_crashed /\
  snd (script page_crashed) = Raise target_closed /\
  exit_status (snd (script page_crashed)) <> 0%Z.
Proof.
  split; [exact started_page_crashed |].
  split; [reflexivity | discriminate].
Qed.

Lemma frontend_down_only_caught_faults :
  only_caught_faults (fst (script frontend_down)).
Proof.
  intros c e Hin. simpl in Hin.
  destruct Hin as [H|[H|[H|[H|[H|[H|[H|[H|[]]]]]]]]]; try discriminate H.
  injection H as <- <-. split; [left; reflexivity | reflexivity].
Defined.

Lemma exit_status_zero_when_faults_caught_witness :
  started frontend_down /\
  only_caught_faults (fst (script frontend_down)) /\
  exit_status (snd (script frontend_down)) = 0%Z /\
  In (Print (error_line connection_refused)) (fst (script frontend_down)).
Proof.
  split; [exact started_frontend_down |].
  split; [exact frontend_down_only_caught_faults |].
  destruct (exit_status_zero_when_faults_caught frontend_down
              started_frontend_down frontend_down_only_caught_faults)
    as (_ & Hstatus & Hcaught).
  split; [exact Hstatus |].
  apply (Hcaught (goto frontend_url)). simpl. tauto.
Defined.

(** The claim C2 fails as stated: the browser is launched, opening the
    page raises, and [run] ends without calling [browser.close]. *)
Lemma browser_left_open_when_new_page_fails :
  fst (run no_page Playwright)
  = [Call (chromium_launch true) None; Call new_page (Some target_closed)] /\
  snd (run no_page Playwright) = Raise target_closed /\
  close_count (fst (run no_page Playwright)) = 0 /\
  ~ In browser_close (calls (fst (script no_page))).
Proof.
  split; [reflexivity |]. split; [reflexivity |]. split; [reflexivity |].
  simpl. intuition discriminate.
Qed.

Lemma run_always_closes_browser_witness :
  totals_missing (chromium_launch true) = None /\
  totals_missing new_page = None /\
  exists before raised,
    fst (run totals_missing Playwright) = before ++ [Call browser_close raised] /\
    ~ In browser_close (calls before) /\
    close_count (fst (run totals_missing Playwright)) = 1.
Proof.
  split; [reflexivity | split; [reflexivity |]].
  exact (run_always_closes_browser totals_missing Playwright eq_refl eq_refl).
Defined.

Lemma failure_closes_browser_once_witness :
  In expect_total_borrowed failure_points /\
  In (Call expect_total_borrowed (Some assertion_timeout))
     (fst (script totals_missing)) /\
  close_count (fst (script totals_missing)) = 1.
Proof.
  assert (Hpoint : In expect_total_borrowed failure_points)
    by (simpl; tauto).
  assert (Hraised : In (Call expect_total_borrowed (Some assertion_timeout))
                       (fst (script totals_missing)))
    by (simpl; tauto).
  split; [exact Hpoint | split; [exact Hraised |]].
  exact (failure_closes_browser_once totals_missing expect_total_borrowed
           assertion_timeout Hpoint Hraised).
Defined.








Example close_fails_run :
  script close_fails
  = ([Call sync_playwright_enter None; Call (chromium_launch true) None;
      Call new_page None; Call (goto "http://localhost:3000") None;
      Call expect_heading None; Call expect_total_borrowed None;
      Call (screenshot verification_png) None;
      Print "Screenshot taken successfully.";
      Call browser_close (Some target_closed); Call sync_playwright_exit None],
     Raise target_closed).
Proof. reflexivity. Qed.

Lemma launch_failure_skips_run_witness :
  no_chromium sync_playwright_enter = None /\
  no_chromium (chromium_launch true) = Some (mkExn Exception "Executable doesn't exist") /\
  calls (fst (script no_chromium))
  = [sync_playwright_enter; chromium_launch true; sync_playwright_exit].
Proof.
  split; [reflexivity | split; [reflexivity |]].
  exact (proj1 (launch_failure_skips_run no_chromium
                  (mkExn Exception "Executable doesn't exist") eq_refl eq_refl)).
Defined.

Lemma new_page_failure_never_closes_browser_witness :
  no_page sync_playwright_enter = None /\
  no_page (chromium_launch true) = None /\
  no_page new_page = Some target_closed /\
  close_count (fst (script no_page)) = 0.
Proof.
  split; [reflexivity | split; [reflexivity | split; [reflexivity |]]].
  exact (proj1 (new_page_failure_never_closes_browser no_page target_closed
                  eq_refl eq_refl eq_refl)).
Defined.

Lemma context_exit_runs_once_and_last_witness :
  page_crashed sync_playwright_enter = None /\
  exists before raised,
    fst (script page_crashed) = before ++ [Call sync_playwright_exit raised] /\
    ~ In sync_playwright_exit (calls before).
Proof.
  split; [reflexivity |].
  exact (context_exit_runs_once_and_last page_crashed eq_refl).
Defined.

Lemma propagating_exception_is_last_raised_witness :
  snd (script close_fails) = Raise target_closed /\
  last_raised (fst (script close_fails)) = Some target_closed.
Proof.
  split; [reflexivity |].
  exact (propagating_exception_is_last_raised close_fails target_closed eq_refl).
Defined.

Lemma success_screenshot_after_assertions_witness :
  fst (script cannot_store_screenshot)
  = [Call sync_playwright_enter None; Call (chromium_launch true) None;
     Call new_page None; Call (goto frontend_url) None;
     Call expect_heading None; Call expect_total_borrowed None]
      ++ Call (screenshot verification_png) (Some permission_denied)
      :: [Print (error_line permission_denied); Call (screenshot error_png) None;
          Call browser_close None; Call sync_playwright_exit None] /\
  In (Call expect_total_borrowed None)
     [Call sync_playwright_enter None; Call (chromium_launch true) None;
      Call new_page None; Call (goto frontend_url) None;
      Call expect_heading None; Call expect_total_borrowed None].
Proof.
  split; [reflexivity |].
  exact (proj2 (proj2
    (success_screenshot_after_assertions cannot_store_screenshot
       [Call sync_playwright_enter None; Call (chromium_launch true) None;
        Call new_page None; Call (goto frontend_url) None;
        Call expect_heading None; Call expect_total_borrowed None]
       [Print (error_line permission_denied); Call (screenshot error_png) None;
        Call browser_close None; Call sync_playwright_exit None]
       (Some permission_denied) eq_refl))).
Defined.



Lemma uncaught_class_bypasses_handler_witness :
  In (goto frontend_url) protected_calls /\
  In (Call (goto frontend_url) (Some keyboard_interrupt)) (fst (script interrupted)) /\
  is_Exception keyboard_interrupt = false /\
  printed (fst (script interrupted)) = [] /\
  close_count (fst (script interrupted)) = 1.
Proof.
  assert (Hcall : In (goto frontend_url) protected_calls) by (simpl; tauto).
  assert (Hraised : In (Call (goto frontend_url) (Some keyboard_interrupt))
                       (fst (script interrupted)))
    by (simpl; tauto).
  split; [exact Hcall | split; [exact Hraised | split; [reflexivity |]]].
  destruct (uncaught_class_bypasses_handler interrupted (goto frontend_url)
              keyboard_interrupt Hcall Hraised eq_refl)
    as (Hprinted & _ & _ & Hclose & _).
  split; [exact Hprinted | exact Hclose].
Defined.
End VerificationRuns.

End AtScenarios.
